(** * plantifi-pro: the Gemini plant-analysis client

    A shallow embedding of [src/services/geminiService.ts] and the
    properties of its single exported function [analyzePlantImage].

    The file follows the source top-down:
    - JavaScript strings, as sequences of UTF-16 code units;
    - the fragment of ECMAScript regular expressions used by the
      data-URL pattern, with [String.prototype.replace];
    - [JSON.parse], as a lexer followed by a push-down parser;
    - the request objects of the [@google/genai] SDK and the response
      schema the source declares;
    - a small effect monad (events, exceptions, try/catch) in which the
      body of [analyzePlantImage] is transcribed;
    - the properties. *)

From Stdlib Require Import ZArith NArith QArith Lia List Ascii String Bool.
From stdpp Require Import base option strings gmap.
Import ListNotations.

Set Warnings "-register-all".

Local Open Scope N_scope.

(** ** JavaScript strings *)

(** A JavaScript string is a finite sequence of UTF-16 code units.  Code
    units are kept as [N]; nothing below depends on the 16-bit bound. *)
Definition code_unit : Type := N.
Definition jsstring : Type := list code_unit.

(** String literals of the source are all ASCII: one byte per code unit. *)
Definition js (s : string) : jsstring :=
  List.map N_of_ascii (list_ascii_of_string s).

(** [ToBoolean] on a string: only the empty string is falsy. *)
Definition truthy (s : jsstring) : bool :=
  match s with
  | [] => false
  | _ :: _ => true
  end.

(** [ToBoolean] on [string | undefined]. *)
Definition truthy_opt (s : option jsstring) : bool :=
  match s with
  | None => false
  | Some s => truthy s
  end.

(** [ToString] on [string | undefined]. *)
Definition ToString (s : option jsstring) : jsstring :=
  match s with
  | Some s => s
  | None => js "undefined"
  end.

(** [a || b] where [a : string | undefined] and [b : string]. *)
Definition or_else (a : option jsstring) (b : jsstring) : jsstring :=
  match a with
  | Some s => if truthy s then s else b
  | None => b
  end.

Fixpoint jsstring_eqb (a b : jsstring) : bool :=
  match a, b with
  | [], [] => true
  | x :: a', y :: b' => (x =? y) && jsstring_eqb a' b'
  | _, _ => false
  end.

(** [starts_with p s]: [p] is a prefix of [s], code unit by code unit. *)
Fixpoint starts_with (p s : jsstring) : bool :=
  match p, s with
  | [], _ => true
  | x :: p', y :: s' => (x =? y) && starts_with p' s'
  | _ :: _, [] => false
  end.

(** A text written with apostrophes where it has double quotes (used to
    write JSON texts down). *)
Definition quoted (s : string) : jsstring :=
  List.map (fun c => if c =? 39 then 34 else c) (js s).

(** Template literals are written as their lines, joined by line feeds. *)
Definition LF : jsstring := [10].
Definition DQUOTE : jsstring := [34].

Fixpoint unlines (ls : list jsstring) : jsstring :=
  match ls with
  | [] => []
  | [l] => l
  | l :: ls' => l ++ LF ++ unlines ls'
  end.

(** ** Regular expressions (the fragment the source uses) *)

Module RegExp.

(** Pattern syntax: characters, sequencing, alternation, a capturing
    group and the [^] assertion.  The source's pattern has no flags, so
    matching is case-sensitive, [^] matches at index 0 only, and a
    search starts at index 0. *)
Inductive pattern : Type :=
| Empty
| Char (c : code_unit)
| Seq (p q : pattern)
| Alt (p q : pattern)
| Group (p : pattern)
| AssertStart.

(** A literal run of characters. *)
Fixpoint lit (l : jsstring) : pattern :=
  match l with
  | [] => Empty
  | c :: l' => Seq (Char c) (lit l')
  end.

(** The backtracking matcher of ECMA-262 in continuation style:
    [matcher p input x k] matches [p] at index [x] of [input] and hands
    the end index to the continuation [k]; [None] is failure.  An
    alternation tries its left branch with the whole continuation first
    and falls back to the right branch.  Captures are not recorded: the
    replacement string of the source refers to none. *)
Fixpoint matcher (p : pattern) (input : jsstring) (x : nat)
         (k : nat -> option nat) : option nat :=
  match p with
  | Empty => k x
  | Char c =>
      match nth_error input x with
      | Some c' => if c =? c' then k (S x) else None
      | None => None
      end
  | Seq p1 p2 => matcher p1 input x (fun y => matcher p2 input y k)
  | Alt p1 p2 =>
      match matcher p1 input x k with
      | Some e => Some e
      | None => matcher p2 input x k
      end
  | Group p1 => matcher p1 input x k
  | AssertStart => if Nat.eqb x 0 then k x else None
  end.

(** [RegExpBuiltinExec] for a pattern that is neither global nor
    sticky: try index 0, 1, ... up to and including the length of the
    input, and report the first match as (index, end index). *)
Fixpoint exec_from (p : pattern) (input suffix : jsstring) (i : nat)
  : option (nat * nat) :=
  match matcher p input i Some with
  | Some e => Some (i, e)
  | None =>
      match suffix with
      | [] => None
      | _ :: suffix' => exec_from p input suffix' (S i)
      end
  end.

Definition exec (p : pattern) (input : jsstring) : option (nat * nat) :=
  exec_from p input input 0%nat.

(** [String.prototype.replace] with a non-global pattern and a
    replacement string that holds no [$]: the first match, if any, is
    cut out and the replacement put in its place. *)
Definition replace (input : jsstring) (p : pattern) (replacement : jsstring)
  : jsstring :=
  match exec p input with
  | None => input
  | Some (i, e) => firstn i input ++ replacement ++ skipn e input
  end.

End RegExp.

(** [/^data:image\/(png|jpg|jpeg);base64,/] *)
Definition dataUrlPattern : RegExp.pattern :=
  RegExp.Seq RegExp.AssertStart
    (RegExp.Seq (RegExp.lit (js "data:image/"))
       (RegExp.Seq
          (RegExp.Group
             (RegExp.Alt (RegExp.lit (js "png"))
                (RegExp.Alt (RegExp.lit (js "jpg")) (RegExp.lit (js "jpeg")))))
          (RegExp.lit (js ";base64,")))).

(** ** JSON values and [JSON.parse] *)

Module JSON.

(** The values [JSON.parse] can produce.  A number is kept as the exact
    rational its literal denotes (the rounding of the literal to a
    binary64 is outside the model; every number the properties below
    inspect is one that a binary64 holds exactly).  An object is the
    list of its own properties in creation order. *)
Inductive value : Type :=
| JNull
| JBool (b : bool)
| JNumber (q : Q)
| JString (s : jsstring)
| JArray (elements : list value)
| JObject (props : list (jsstring * value)).

(** Property read [o[k]] on an object's own properties. *)
Fixpoint lookup (k : jsstring) (props : list (jsstring * value))
  : option value :=
  match props with
  | [] => None
  | (k', v) :: rest => if jsstring_eqb k k' then Some v else lookup k rest
  end.

(** [CreateDataProperty]: a key already present keeps its position and
    takes the new value, a new key goes last. *)
Fixpoint define (k : jsstring) (v : value) (props : list (jsstring * value))
  : list (jsstring * value) :=
  match props with
  | [] => [(k, v)]
  | (k', v') :: rest =>
      if jsstring_eqb k k' then (k', v) :: rest
      else (k', v') :: define k v rest
  end.

(** Field read [v[k]] for a field name [k]: the own property of an
    object; the other values have no named field. *)
Definition get (k : string) (v : value) : option value :=
  match v with
  | JObject props => lookup (js k) props
  | _ => None
  end.

(** *** Lexer *)

Inductive token : Type :=
| TLBrace | TRBrace | TLBracket | TRBracket | TColon | TComma
| TString (s : jsstring)
| TNumber (q : Q)
| TTrue | TFalse | TNull.

Definition is_ws (c : code_unit) : bool :=
  (c =? 32) || (c =? 9) || (c =? 10) || (c =? 13).

Definition is_digit (c : code_unit) : bool := (48 <=? c) && (c <=? 57).

Definition hex_digit (c : code_unit) : option N :=
  if (48 <=? c) && (c <=? 57) then Some (c - 48)
  else if (65 <=? c) && (c <=? 70) then Some (c - 55)
  else if (97 <=? c) && (c <=? 102) then Some (c - 87)
  else None.

Definition hex4 (a b c d : code_unit) : option code_unit :=
  match hex_digit a, hex_digit b, hex_digit c, hex_digit d with
  | Some a, Some b, Some c, Some d => Some (((a * 16 + b) * 16 + c) * 16 + d)
  | _, _, _, _ => None
  end.

(** The single-character escapes: a backslash followed by a double
    quote, a backslash, a slash, or one of the letters b, f, n, r, t. *)
Definition unescape (c : code_unit) : option code_unit :=
  if c =? 34 then Some 34
  else if c =? 92 then Some 92
  else if c =? 47 then Some 47
  else if c =? 98 then Some 8
  else if c =? 102 then Some 12
  else if c =? 110 then Some 10
  else if c =? 114 then Some 13
  else if c =? 116 then Some 9
  else None.

Definition consumed (n : nat) (r : option (jsstring * nat)) (c : code_unit)
  : option (jsstring * nat) :=
  match r with
  | Some (s, m) => Some (c :: s, (n + m)%nat)
  | None => None
  end.

(** [scan_string s] reads a string body up to and including its closing
    quote; it returns the decoded string and the number of code units
    read. *)
Fixpoint scan_string (s : jsstring) : option (jsstring * nat) :=
  match s with
  | [] => None
  | c :: r =>
      if c =? 34 then Some ([], 1%nat)
      else if c =? 92 then
        match r with
        | [] => None
        | e :: r' =>
            if e =? 117 then
              match r' with
              | h1 :: h2 :: h3 :: h4 :: r'' =>
                  match hex4 h1 h2 h3 h4 with
                  | Some u => consumed 6 (scan_string r'') u
                  | None => None
                  end
              | _ => None
              end
            else
              match unescape e with
              | Some u => consumed 2 (scan_string r') u
              | None => None
              end
        end
      else if c <? 32 then None
      else consumed 1 (scan_string r) c
  end.

(** The longest run of decimal digits at the head of [s], as digit
    values, and what follows it. *)
Fixpoint span_digits (s : jsstring) : list N * jsstring :=
  match s with
  | [] => ([], [])
  | c :: r =>
      if is_digit c then
        let (ds, rest) := span_digits r in (c - 48 :: ds, rest)
      else ([], s)
  end.

Definition digits_value (ds : list N) : N :=
  fold_left (fun acc d => 10 * acc + d) ds 0.

(** [m * 10 ^ e] as a rational in lowest terms. *)
Definition scale10 (m e : Z) : Q :=
  if (0 <=? e)%Z then Qred (Qmake (m * 10 ^ e) 1)
  else Qred (Qmake m (Z.to_pos (10 ^ (- e)))).

(** [scan_number s] reads one number of the JSON grammar: an optional
    minus sign; an integer part, either a single 0 or digits that do
    not start with 0; an optional fraction, a dot and at least one
    digit; an optional exponent, e or E, an optional sign and at least
    one digit.  It returns the value and the number of code units
    read. *)
Definition scan_number (s : jsstring) : option (Q * nat) :=
  let (neg, s1) :=
    match s with
    | c :: r => if c =? 45 then (true, r) else (false, s)
    | [] => (false, s)
    end in
  let (ids, s2) := span_digits s1 in
  match ids with
  | [] => None
  | d :: ds =>
      if (d =? 0) && negb (Nat.eqb (length ds) 0) then None
      else
        let frac :=
          match s2 with
          | c :: r =>
              if c =? 46 then
                let (fds, r') := span_digits r in
                match fds with
                | [] => None
                | _ :: _ => Some (fds, r')
                end
              else Some ([], s2)
          | [] => Some ([], s2)
          end in
        match frac with
        | None => None
        | Some (fds, s3) =>
            let expo :=
              match s3 with
              | c :: r =>
                  if (c =? 101) || (c =? 69) then
                    let (eneg, r1) :=
                      match r with
                      | sg :: r0 =>
                          if sg =? 45 then (true, r0)
                          else if sg =? 43 then (false, r0)
                          else (false, r)
                      | [] => (false, r)
                      end in
                    let (eds, r2) := span_digits r1 in
                    match eds with
                    | [] => None
                    | _ :: _ =>
                        let e := Z.of_N (digits_value eds) in
                        Some (if eneg then (- e)%Z else e, r2)
                    end
                  else Some (0%Z, s3)
              | [] => Some (0%Z, s3)
              end in
            match expo with
            | None => None
            | Some (e, s4) =>
                let m := Z.of_N (digits_value (ids ++ fds)) in
                let m := if neg then (- m)%Z else m in
                Some (scale10 m (e - Z.of_nat (length fds)),
                      (length s - length s4)%nat)
            end
        end
  end.

Definition emit (t : token) (r : option (list token)) : option (list token) :=
  match r with
  | Some ts => Some (t :: ts)
  | None => None
  end.

(** The lexer walks the text once.  When a token of several code units
    has been read at the current position, [skip] counts the code units
    of it that are still to be passed over. *)
Fixpoint lex (skip : nat) (s : jsstring) : option (list token) :=
  match s with
  | [] => Some []
  | c :: r =>
      match skip with
      | S skip' => lex skip' r
      | O =>
          if is_ws c then lex 0 r
          else if c =? 123 then emit TLBrace (lex 0 r)
          else if c =? 125 then emit TRBrace (lex 0 r)
          else if c =? 91 then emit TLBracket (lex 0 r)
          else if c =? 93 then emit TRBracket (lex 0 r)
          else if c =? 58 then emit TColon (lex 0 r)
          else if c =? 44 then emit TComma (lex 0 r)
          else if c =? 34 then
            match scan_string r with
            | Some (str, n) => emit (TString str) (lex n r)
            | None => None
            end
          else if starts_with (js "true") s then emit TTrue (lex 3 r)
          else if starts_with (js "false") s then emit TFalse (lex 4 r)
          else if starts_with (js "null") s then emit TNull (lex 3 r)
          else if (c =? 45) || is_digit c then
            match scan_number s with
            | Some (q, n) => emit (TNumber q) (lex (Nat.pred n) r)
            | None => None
            end
          else None
      end
  end.

(** *** Parser *)

(** An enclosing container that waits for the value being read. *)
Inductive frame : Type :=
| FArray (acc : list value)
| FObject (acc : list (jsstring * value)) (key : jsstring).

(** Parser states, named by what may come next. *)
Inductive pstate : Type :=
| Start (stk : list frame)
| ArrFirst (stk : list frame)
| ArrNext (acc : list value) (stk : list frame)
| ObjFirst (stk : list frame)
| ObjKey (acc : list (jsstring * value)) (stk : list frame)
| ObjColon (acc : list (jsstring * value)) (key : jsstring) (stk : list frame)
| ObjNext (acc : list (jsstring * value)) (stk : list frame)
| Done (v : value).

(** A complete value goes to the innermost enclosing container. *)
Definition deliver (v : value) (stk : list frame) : pstate :=
  match stk with
  | [] => Done v
  | FArray acc :: stk' => ArrNext (acc ++ [v]) stk'
  | FObject acc k :: stk' => ObjNext (define k v acc) stk'
  end.

Definition begin_value (t : token) (stk : list frame) : option pstate :=
  match t with
  | TLBracket => Some (ArrFirst stk)
  | TLBrace => Some (ObjFirst stk)
  | TString s => Some (deliver (JString s) stk)
  | TNumber q => Some (deliver (JNumber q) stk)
  | TTrue => Some (deliver (JBool true) stk)
  | TFalse => Some (deliver (JBool false) stk)
  | TNull => Some (deliver JNull stk)
  | TRBrace | TRBracket | TColon | TComma => None
  end.

Definition step (st : pstate) (t : token) : option pstate :=
  match st with
  | Start stk => begin_value t stk
  | ArrFirst stk =>
      match t with
      | TRBracket => Some (deliver (JArray []) stk)
      | _ => begin_value t (FArray [] :: stk)
      end
  | ArrNext acc stk =>
      match t with
      | TComma => Some (Start (FArray acc :: stk))
      | TRBracket => Some (deliver (JArray acc) stk)
      | _ => None
      end
  | ObjFirst stk =>
      match t with
      | TRBrace => Some (deliver (JObject []) stk)
      | TString k => Some (ObjColon [] k stk)
      | _ => None
      end
  | ObjKey acc stk =>
      match t with
      | TString k => Some (ObjColon acc k stk)
      | _ => None
      end
  | ObjColon acc k stk =>
      match t with
      | TColon => Some (Start (FObject acc k :: stk))
      | _ => None
      end
  | ObjNext acc stk =>
      match t with
      | TComma => Some (ObjKey acc stk)
      | TRBrace => Some (deliver (JObject acc) stk)
      | _ => None
      end
  | Done _ => None
  end.

Fixpoint run (st : pstate) (ts : list token) : option pstate :=
  match ts with
  | [] => Some st
  | t :: ts' =>
      match step st t with
      | Some st' => run st' ts'
      | None => None
      end
  end.

(** [JSON.parse text] without a reviver: [Some v] is the value
    returned, [None] stands for the [SyntaxError] it throws. *)
Definition parse (text : jsstring) : option value :=
  match lex 0 text with
  | None => None
  | Some ts =>
      match run (Start []) ts with
      | Some (Done v) => Some v
      | _ => None
      end
  end.

End JSON.

(** ** The [@google/genai] SDK, as far as the source uses it *)

Module GenAI.

(** The members of the SDK's [Type] enumeration the source names. *)
Inductive Type_ : Type := STRING | NUMBER | ARRAY | OBJECT.

(** A schema object literal: [type] and the optional members [enum],
    [items], [properties] and [required]. *)
Inductive Schema : Type :=
  mkSchema (type : Type_)
           (enum : option (list jsstring))
           (items : option Schema)
           (properties : option (list (string * Schema)))
           (required : option (list string)).

Definition type (s : Schema) : Type_ :=
  match s with mkSchema t _ _ _ _ => t end.
Definition enum (s : Schema) : option (list jsstring) :=
  match s with mkSchema _ e _ _ _ => e end.
Definition items (s : Schema) : option Schema :=
  match s with mkSchema _ _ i _ _ => i end.
Definition properties (s : Schema) : option (list (string * Schema)) :=
  match s with mkSchema _ _ _ p _ => p end.
Definition required (s : Schema) : option (list string) :=
  match s with mkSchema _ _ _ _ r => r end.

(** One part of the request content: [{ inlineData: { mimeType, data } }]
    or [{ text }]. *)
Inductive Part : Type :=
| inlineData (mimeType data : jsstring)
| text (t : jsstring).

Record Content : Type := { parts : list Part }.

Record GenerateContentConfig : Type := {
  systemInstruction : jsstring;
  responseMimeType : jsstring;
  responseSchema : Schema
}.

Record GenerateContentParameters : Type := {
  model : jsstring;
  contents : Content;
  config : GenerateContentConfig
}.

(** The client object built by [new GoogleGenAI({ apiKey })]. *)
Record GoogleGenAI : Type := { options_apiKey : jsstring }.

(** [response.text] is [string | undefined]. *)
Record GenerateContentResponse : Type := { response_text : option jsstring }.

(** [schema_accepts s v]: the JSON value [v] has the shape the schema [s]
    declares, with the reading the service gives to a response schema
    (the OpenAPI one): the type must agree; a string must be one of
    [enum] when there is one; every element of an array must fit
    [items]; an object must own every [required] property, and each
    property listed in [properties] that it owns must fit its schema. *)
Fixpoint schema_accepts (s : Schema) (v : JSON.value) : bool :=
  match s with
  | mkSchema STRING en _ _ _ =>
      match v with
      | JSON.JString str =>
          match en with
          | Some allowed => existsb (jsstring_eqb str) allowed
          | None => true
          end
      | _ => false
      end
  | mkSchema NUMBER _ _ _ _ =>
      match v with
      | JSON.JNumber _ => true
      | _ => false
      end
  | mkSchema ARRAY _ it _ _ =>
      match v with
      | JSON.JArray elements =>
          match it with
          | Some s' => forallb (schema_accepts s') elements
          | None => true
          end
      | _ => false
      end
  | mkSchema OBJECT _ _ ps req =>
      match v with
      | JSON.JObject own =>
          match req with
          | Some names =>
              forallb
                (fun k =>
                   match JSON.lookup (js k) own with
                   | Some _ => true
                   | None => false
                   end)
                names
          | None => true
          end
          &&
          match ps with
          | Some declared =>
              forallb
                (fun d =>
                   match d with
                   | (k, s') =>
                       match JSON.lookup (js k) own with
                       | Some v' => schema_accepts s' v'
                       | None => true
                       end
                   end)
                declared
          | None => true
          end
      | _ => false
      end
  end.

End GenAI.

(** ** Effects: the world, events, exceptions *)

(** What JavaScript code here can throw. *)
Inductive exn : Type :=
| Error (message : jsstring)      (* [new Error(message)] *)
| SyntaxError                     (* thrown by [JSON.parse] *)
| Rejection (reason : jsstring).  (* what the SDK call rejects with *)

(** How the awaited SDK call ends. *)
Inductive reply : Type :=
| Rejects (e : exn)
| Resolves (r : GenAI.GenerateContentResponse).

(** The world a call runs in: the process environment at the time of the
    call (code may read it; the function below does not), and the remote
    service behind the SDK. *)
Record World : Type := {
  process_env : gmap string jsstring;
  generateContent : GenAI.GoogleGenAI -> GenAI.GenerateContentParameters -> reply
}.

(** What a call does that can be observed from outside. *)
Inductive event : Type :=
| NewGoogleGenAI (ai : GenAI.GoogleGenAI)
| GenerateContent (ai : GenAI.GoogleGenAI) (params : GenAI.GenerateContentParameters)
| ConsoleError (label : jsstring) (e : exn).

(** How a computation ends.  For the [async] function a normal completion
    fulfils the returned promise, an abrupt one rejects it. *)
Inductive completion (A : Type) : Type :=
| Returns (a : A)
| Throws (e : exn).
Arguments Returns {A} a.
Arguments Throws {A} e.

Definition Eff (A : Type) : Type :=
  World -> list event -> completion A * list event.

Definition ret {A} (a : A) : Eff A := fun _ tr => (Returns a, tr).

Definition bind {A B} (m : Eff A) (f : A -> Eff B) : Eff B :=
  fun w tr =>
    match m w tr with
    | (Returns a, tr') => f a w tr'
    | (Throws e, tr') => (Throws e, tr')
    end.

Definition throw {A} (e : exn) : Eff A := fun _ tr => (Throws e, tr).

Definition try_catch {A} (body : Eff A) (handler : exn -> Eff A) : Eff A :=
  fun w tr =>
    match body w tr with
    | (Returns a, tr') => (Returns a, tr')
    | (Throws e, tr') => handler e w tr'
    end.

Definition log (ev : event) : Eff unit := fun _ tr => (Returns tt, tr ++ [ev]).

Declare Scope eff_scope.
Delimit Scope eff_scope with eff.
Notation "x <- m ;; k" := (bind m (fun x => k))
  (at level 20, m at level 99, k at level 200, only parsing) : eff_scope.
Notation "m ;; k" := (bind m (fun _ => k))
  (at level 100, k at level 200, only parsing, right associativity) : eff_scope.

(** [new GoogleGenAI(options)] *)
Definition new_GoogleGenAI (options : GenAI.GoogleGenAI) : Eff GenAI.GoogleGenAI :=
  (log (NewGoogleGenAI options) ;; ret options)%eff.

(** [await ai.models.generateContent(params)] *)
Definition models_generateContent (ai : GenAI.GoogleGenAI)
           (params : GenAI.GenerateContentParameters)
  : Eff GenAI.GenerateContentResponse :=
  (log (GenerateContent ai params) ;;
   fun w tr =>
     match generateContent w ai params with
     | Rejects e => (Throws e, tr)
     | Resolves r => (Returns r, tr)
     end)%eff.

(** [console.error(label, e)] *)
Definition console_error (label : jsstring) (e : exn) : Eff unit :=
  log (ConsoleError label e).

(** [JSON.parse(text)] applied to [string | undefined]: the argument goes
    through [ToString] first. *)
Definition JSON_parse (text : option jsstring) : Eff JSON.value :=
  match JSON.parse (ToString text) with
  | Some v => ret v
  | None => throw SyntaxError
  end.

(** ** [src/services/geminiService.ts] *)

(** The module's only top-level binding is the constant [apiKey]; a
    loaded module is the value that constant received. *)
Record geminiService : Type := { apiKey : jsstring }.

(** Module evaluation: [const apiKey = process.env.API_KEY || '']. *)
Definition load_module (env : gmap string jsstring) : geminiService :=
  {| apiKey := or_else (env !! "API_KEY"%string) (js "") |}.

Definition responseSchema : GenAI.Schema :=
  let STRING := GenAI.mkSchema GenAI.STRING None None None None in
  GenAI.mkSchema GenAI.OBJECT None None
    (Some
       [ ("plant_name"%string, STRING);
         ("status"%string,
           GenAI.mkSchema GenAI.STRING
             (Some [js "Healthy"; js "Diseased"; js "Uncertain"])
             None None None);
         ("disease_name"%string, STRING);
         ("confidence"%string, GenAI.mkSchema GenAI.NUMBER None None None None);
         ("treatment_advice"%string, STRING);
         ("prevention_tips"%string,
           GenAI.mkSchema GenAI.ARRAY None (Some STRING) None None);
         ("watering_advice"%string, STRING) ])
    (Some
       [ "plant_name"%string; "status"%string; "treatment_advice"%string;
         "confidence"%string; "prevention_tips"%string;
         "watering_advice"%string ]).

Definition systemInstruction_template (language : jsstring) : jsstring :=
  unlines
    [ js "";
      js "    You are an expert agricultural plant pathologist and linguist. ";
      js "    Your task is to analyze plant images and provide diagnosis and advice.";
      js "    ";
      js "    CRITICAL LANGUAGE REQUIREMENT: ";
      js "    The user has requested the response in " ++ language ++ js ".";
      js "    You MUST translate all descriptive fields (plant_name, disease_name, treatment_advice, prevention_tips, watering_advice) into "
        ++ language ++ js ".";
      js "    However, the 'status' field MUST remain in English (Healthy, Diseased, Uncertain) for programmatic use.";
      js "  " ].

Definition prompt_template (language : jsstring) (symptoms : option jsstring)
  : jsstring :=
  unlines
    [ js "";
      js "    Analyze this plant leaf image.";
      js "    " ++
        (if truthy_opt symptoms
         then js "Additional user-reported symptoms: " ++ DQUOTE
                ++ ToString symptoms ++ DQUOTE ++ js "."
         else js "");
      js "    ";
      js "    Provide the output strictly in JSON format.";
      js "    ";
      js "    Fields required:";
      js "    1. plant_name: The common name of the plant (in " ++ language ++ js ").";
      js "    2. status: One of " ++ DQUOTE ++ js "Healthy" ++ DQUOTE ++ js ", "
        ++ DQUOTE ++ js "Diseased" ++ DQUOTE ++ js ", "
        ++ DQUOTE ++ js "Uncertain" ++ DQUOTE ++ js ".";
      js "    3. disease_name: The name of the disease (in " ++ language
        ++ js "), or " ++ DQUOTE ++ js "None" ++ DQUOTE ++ js " if healthy.";
      js "    4. confidence: A number between 0 and 100.";
      js "    5. treatment_advice: A practical guide to treating the disease (in "
        ++ language ++ js ").";
      js "    6. prevention_tips: A list of 2-3 tips to prevent recurrence (in "
        ++ language ++ js ").";
      js "    7. watering_advice: Specific watering instructions for this condition (in "
        ++ language ++ js ").";
      js "  " ].

Definition MSG_API_KEY_MISSING : jsstring :=
  js "API Key is missing. Please set your API_KEY in the Vercel environment variables.".

Definition MSG_NO_RESPONSE : jsstring := js "No response from AI".

Definition MSG_ANALYSIS_FAILED : jsstring :=
  js "Failed to analyze image. Please check if your API key is valid and has billing enabled.".

(** The object literal passed to [generateContent]. *)
Definition request (cleanBase64 systemInstruction prompt : jsstring)
  : GenAI.GenerateContentParameters :=
  {| GenAI.model := js "gemini-2.5-flash";
     GenAI.contents :=
       {| GenAI.parts :=
            [ GenAI.inlineData (js "image/jpeg") cleanBase64;
              GenAI.text prompt ] |};
     GenAI.config :=
       {| GenAI.systemInstruction := systemInstruction;
          GenAI.responseMimeType := js "application/json";
          GenAI.responseSchema := responseSchema |} |}.

Local Open Scope eff_scope.

(** [analyzePlantImage(base64Image, language, symptoms?)].  The type
    assertion [as DiseaseAnalysisResult] leaves no trace at run time: the
    value returned is the value [JSON.parse] produced. *)
Definition analyzePlantImage (self : geminiService)
           (base64Image language : jsstring) (symptoms : option jsstring)
  : Eff JSON.value :=
  if negb (truthy (apiKey self)) then
    throw (Error MSG_API_KEY_MISSING)
  else
    ai <- new_GoogleGenAI {| GenAI.options_apiKey := apiKey self |} ;;
    let cleanBase64 := RegExp.replace base64Image dataUrlPattern (js "") in
    let systemInstruction := systemInstruction_template language in
    let prompt := prompt_template language symptoms in
    try_catch
      (response <-
         models_generateContent ai (request cleanBase64 systemInstruction prompt) ;;
       let text := GenAI.response_text response in
       if negb (truthy_opt text) then throw (Error MSG_NO_RESPONSE)
       else JSON_parse text)
      (fun error =>
         console_error (js "Gemini Analysis Error:") error ;;
         throw (Error MSG_ANALYSIS_FAILED)).

Local Close Scope eff_scope.

(** A call made on a module loaded earlier, in world [w], from an empty
    event log. *)
Definition call (self : geminiService) (w : World)
           (base64Image language : jsstring) (symptoms : option jsstring)
  : completion JSON.value * list event :=
  analyzePlantImage self base64Image language symptoms w [].

(** *** Observations on an event log *)

Definition requests_sent (tr : list event) : list GenAI.GenerateContentParameters :=
  flat_map
    (fun ev =>
       match ev with
       | GenerateContent _ params => [params]
       | _ => []
       end)
    tr.

Definition clients_built (tr : list event) : list GenAI.GoogleGenAI :=
  flat_map
    (fun ev =>
       match ev with
       | NewGoogleGenAI ai => [ai]
       | _ => []
       end)
    tr.

(** The image data a request carries: the [data] of its inline parts. *)
Definition image_data (params : GenAI.GenerateContentParameters) : list jsstring :=
  flat_map
    (fun p =>
       match p with
       | GenAI.inlineData _ data => [data]
       | GenAI.text _ => []
       end)
    (GenAI.parts (GenAI.contents params)).

(** * Vocabulary of the properties *)

(** The shape of the source's pattern, [^ d (e1|e2|e3) t], and the text
    one of its alternatives matches. *)
Definition anchored (d e1 e2 e3 t : jsstring) : RegExp.pattern :=
  RegExp.Seq RegExp.AssertStart
    (RegExp.Seq (RegExp.lit d)
       (RegExp.Seq
          (RegExp.Group
             (RegExp.Alt (RegExp.lit e1) (RegExp.Alt (RegExp.lit e2) (RegExp.lit e3))))
          (RegExp.lit t))).

Definition alternative (d t e : jsstring) : jsstring := d ++ e ++ t.

(** The three prefixes the pattern recognises, written out. *)
Definition dataUrlPrefixes : list jsstring :=
  [ js "data:image/png;base64,";
    js "data:image/jpg;base64,";
    js "data:image/jpeg;base64," ].

(** [s] begins with none of the recognised prefixes. *)
Definition no_dataUrlPrefix (s : jsstring) : Prop :=
  forall p rest, In p dataUrlPrefixes -> s <> p ++ rest.

(** The client, the request and the reply of one call. *)
Definition client_of (self : geminiService) : GenAI.GoogleGenAI :=
  {| GenAI.options_apiKey := apiKey self |}.

Definition request_of (base64Image language : jsstring) (symptoms : option jsstring)
  : GenAI.GenerateContentParameters :=
  request (RegExp.replace base64Image dataUrlPattern (js ""))
          (systemInstruction_template language)
          (prompt_template language symptoms).

Definition LABEL : jsstring := js "Gemini Analysis Error:".

(** The reply the remote service gives to the request of this call. *)
Definition reply_of (self : geminiService) (w : World)
           (base64Image language : jsstring) (symptoms : option jsstring) : reply :=
  generateContent w (client_of self) (request_of base64Image language symptoms).

(** What the declared schema says about a value. *)
Definition STATUSES : list jsstring := [js "Healthy"; js "Diseased"; js "Uncertain"].

Definition is_text (v : JSON.value) : Prop := exists s, v = JSON.JString s.

(** The seven-field shape: the six required fields are present with
    their types, [disease_name] is text when present. *)
Record seven_fields (v : JSON.value) : Prop := {
  sf_plant_name : exists s, JSON.get "plant_name" v = Some (JSON.JString s);
  sf_status : exists s, JSON.get "status" v = Some (JSON.JString s) /\ In s STATUSES;
  sf_disease_name :
    JSON.get "disease_name" v = None \/
    exists s, JSON.get "disease_name" v = Some (JSON.JString s);
  sf_confidence : exists q, JSON.get "confidence" v = Some (JSON.JNumber q);
  sf_treatment_advice : exists s, JSON.get "treatment_advice" v = Some (JSON.JString s);
  sf_prevention_tips :
    exists tips, JSON.get "prevention_tips" v = Some (JSON.JArray tips) /\
                 Forall is_text tips;
  sf_watering_advice : exists s, JSON.get "watering_advice" v = Some (JSON.JString s)
}.

(** The ways the remote step can go wrong: the call rejects, the response
    has no text, the text is empty, the text is not JSON. *)
Inductive failed_reply : reply -> Prop :=
| remote_throws (e : exn) : failed_reply (Rejects e)
| text_missing : failed_reply (Resolves {| GenAI.response_text := None |})
| text_empty : failed_reply (Resolves {| GenAI.response_text := Some [] |})
| text_not_json (t : jsstring) :
    JSON.parse t = None ->
    failed_reply (Resolves {| GenAI.response_text := Some t |}).

(** The schema declared for one property of an object schema. *)
Definition schema_property (name : string) (s : GenAI.Schema) : option GenAI.Schema :=
  match GenAI.properties s with
  | Some ps =>
      match List.find (fun d => String.eqb name (fst d)) ps with
      | Some d => Some (snd d)
      | None => None
      end
  | None => None
  end.

(** The names an object schema declares, in order. *)
Definition declared_fields (s : GenAI.Schema) : list string :=
  match GenAI.properties s with
  | Some ps => List.map fst ps
  | None => []
  end.

Definition SEVEN_FIELDS : list string :=
  [ "plant_name"; "status"; "disease_name"; "confidence"; "treatment_advice";
    "prevention_tips"; "watering_advice" ]%string.

Definition SIX_REQUIRED : list string :=
  [ "plant_name"; "status"; "treatment_advice"; "confidence"; "prevention_tips";
    "watering_advice" ]%string.

(** The percent range of the prompt. *)
Definition in_percent_range (q : Q) : Prop := (0 <= q /\ q <= 100)%Q.

(** The world [w] with its process environment replaced. *)
Definition with_env (w : World) (env : gmap string jsstring) : World :=
  {| process_env := env; generateContent := generateContent w |}.

(** What a log holds of [console.error]: the label and the value logged
    with it, in order. *)
Definition console_errors (tr : list event) : list (jsstring * exn) :=
  flat_map
    (fun ev =>
       match ev with
       | ConsoleError label e => [(label, e)]
       | _ => []
       end)
    tr.

(** The sentence the prompt gives to the reported symptoms. *)
Definition symptoms_sentence (symptoms : jsstring) : jsstring :=
  js "Additional user-reported symptoms: " ++ DQUOTE ++ symptoms ++ DQUOTE ++ js ".".

(** A text made of JSON white space only. *)
Definition blank (text : jsstring) : Prop := forallb JSON.is_ws text = true.

(** ** Sample worlds and responses *)

(** A remote service that answers every request with the same text. *)
Definition remote_answers (env : gmap string jsstring) (text : option jsstring) : World :=
  {| process_env := env;
     generateContent := fun _ _ => Resolves {| GenAI.response_text := text |} |}.

(** A remote service whose call always rejects. *)
Definition remote_rejects (env : gmap string jsstring) (e : exn) : World :=
  {| process_env := env;
     generateContent := fun _ _ => Rejects e |}.

Definition env_with_key : gmap string jsstring :=
  {[ "API_KEY"%string := js "secret" ]}.

Definition env_without_key : gmap string jsstring := ∅.

(** A diagnosis in the declared shape, with the given confidence literal
    and prevention tips. *)
Definition diagnosis (confidence tips : string) : jsstring :=
  quoted "{'plant_name':'Tomato','status':'Diseased','disease_name':'Early blight','confidence':"
  ++ quoted confidence
  ++ quoted ",'treatment_advice':'Remove the affected leaves.','prevention_tips':"
  ++ quoted tips
  ++ quoted ",'watering_advice':'Water at the base of the plant.'}".

Definition two_tips : string := "['Rotate crops every season.','Keep the leaves dry.']".
Definition one_tip : string := "['Rotate crops every season.']".

(** * Properties *)

(** ** Strings *)

Lemma jsstring_eqb_eq (a b : jsstring) : jsstring_eqb a b = true <-> a = b.
Proof.
  revert b. induction a as [|x a IH]; intros [|y b]; simpl; split;
    try congruence; try reflexivity.
  - intros H. apply andb_prop in H as [Hx Ha].
    apply N.eqb_eq in Hx. apply IH in Ha. congruence.
  - intros H. injection H as -> ->. rewrite N.eqb_refl. simpl.
    apply IH. reflexivity.
Qed.

Lemma starts_with_prefix (p s : jsstring) :
  starts_with p s = true <-> exists r, s = p ++ r.
Proof.
  revert s. induction p as [|x p IH]; intros s; simpl.
  - split; [intros _; exists s; reflexivity | reflexivity].
  - destruct s as [|y s].
    + split; [discriminate | intros [r Hr]; discriminate].
    + split.
      * intros H. apply andb_prop in H as [Hx Hp].
        apply N.eqb_eq in Hx. apply IH in Hp as [r ->].
        exists r. congruence.
      * intros [r Hr]. injection Hr as -> ->.
        rewrite N.eqb_refl. simpl. apply IH. exists r. reflexivity.
Qed.

Lemma starts_with_app (a b s : jsstring) :
  starts_with (a ++ b) s = starts_with a s && starts_with b (skipn (length a) s).
Proof.
  revert s. induction a as [|x a IH]; intros s; simpl.
  - reflexivity.
  - destruct s as [|y s]; [reflexivity |].
    rewrite IH. simpl. rewrite andb_assoc. reflexivity.
Qed.

Lemma skipn_nth_error (s : jsstring) (x : nat) :
  skipn x s =
  match nth_error s x with
  | Some c => c :: skipn (S x) s
  | None => []
  end.
Proof.
  revert s. induction x as [|x IH]; intros [|c s]; simpl; try reflexivity.
  apply IH.
Qed.

(** ** Object properties *)

Lemma jsstring_eqb_refl (a : jsstring) : jsstring_eqb a a = true.
Proof. apply jsstring_eqb_eq. reflexivity. Qed.

(** A property that is defined twice reads as the later value. *)
Lemma lookup_define_eq (k : jsstring) (v : JSON.value) props :
  JSON.lookup k (JSON.define k v props) = Some v.
Proof.
  induction props as [|[k' v'] props IH]; simpl.
  - rewrite jsstring_eqb_refl. reflexivity.
  - destruct (jsstring_eqb k k') eqn:E; simpl; rewrite E; [reflexivity | exact IH].
Qed.

Lemma lookup_define_ne (k k' : jsstring) (v : JSON.value) props :
  k <> k' -> JSON.lookup k' (JSON.define k v props) = JSON.lookup k' props.
Proof.
  intros Hne. induction props as [|[k0 v0] props IH]; simpl.
  - destruct (jsstring_eqb k' k) eqn:E; [|reflexivity].
    apply jsstring_eqb_eq in E. congruence.
  - destruct (jsstring_eqb k k0) eqn:E; simpl.
    + apply jsstring_eqb_eq in E. subst k0.
      destruct (jsstring_eqb k' k) eqn:E'; [|reflexivity].
      apply jsstring_eqb_eq in E'. congruence.
    + rewrite IH. reflexivity.
Qed.

(** ** The data-URL pattern *)

(** A literal matches where the input continues with it. *)
Lemma matcher_lit (l input : jsstring) (x : nat) (k : nat -> option nat) :
  RegExp.matcher (RegExp.lit l) input x k =
  if starts_with l (skipn x input) then k (x + length l)%nat else None.
Proof.
  revert x. induction l as [|c l IH]; intros x; simpl.
  - rewrite Nat.add_0_r. reflexivity.
  - rewrite (skipn_nth_error input x).
    destruct (nth_error input x) as [c'|]; [|reflexivity].
    destruct (c =? c'); simpl; [|reflexivity].
    rewrite IH. replace (S x + length l)%nat with (x + S (length l))%nat by lia.
    reflexivity.
Qed.

Section Anchored.

Variables d e1 e2 e3 t : jsstring.

Local Abbreviation pat := (anchored d e1 e2 e3 t).
Local Abbreviation alt := (alternative d t).

(** At index 0 the alternatives are tried from left to right, each with
    the rest of the pattern behind it. *)
Lemma anchored_at_0 (input : jsstring) :
  RegExp.matcher pat input 0 Some =
  if starts_with (alt e1) input then Some (length (alt e1))
  else if starts_with (alt e2) input then Some (length (alt e2))
  else if starts_with (alt e3) input then Some (length (alt e3))
  else None.
Proof.
  unfold anchored, alternative. simpl.
  rewrite !starts_with_app, !matcher_lit. simpl.
  rewrite !skipn_skipn, !length_app.
  rewrite !(Nat.add_comm (length _) (length d)).
  change (skipn 0 input) with input.
  destruct (starts_with d input); simpl; [|reflexivity].
  repeat
    match goal with
    | |- context [starts_with ?p ?s] =>
        lazymatch s with
        | context [skipn] => destruct (starts_with p s); simpl
        end
    end;
    try reflexivity; f_equal; lia.
Qed.

(** [^] fails everywhere but at index 0. *)
Lemma anchored_after_0 (input : jsstring) (x : nat) (k : nat -> option nat) :
  RegExp.matcher pat input (S x) k = None.
Proof. reflexivity. Qed.

Lemma exec_from_after_0 (input suffix : jsstring) (x : nat) :
  RegExp.exec_from pat input suffix (S x) = None.
Proof.
  revert x. induction suffix as [|c suffix IH]; intros x;
    unfold RegExp.exec_from; fold RegExp.exec_from; rewrite anchored_after_0;
    [reflexivity | apply IH].
Qed.

Lemma exec_anchored (input : jsstring) :
  RegExp.exec pat input =
  match RegExp.matcher pat input 0 Some with
  | Some e => Some (0%nat, e)
  | None => None
  end.
Proof.
  unfold RegExp.exec. destruct input as [|c input];
    unfold RegExp.exec_from; fold RegExp.exec_from;
    destruct (RegExp.matcher pat _ 0 Some); try reflexivity.
  apply exec_from_after_0.
Qed.

(** Replacing by the empty string keeps what follows the match. *)
Lemma replace_anchored (input : jsstring) :
  RegExp.replace input pat [] =
  if starts_with (alt e1) input then skipn (length (alt e1)) input
  else if starts_with (alt e2) input then skipn (length (alt e2)) input
  else if starts_with (alt e3) input then skipn (length (alt e3)) input
  else input.
Proof.
  unfold RegExp.replace. rewrite exec_anchored, anchored_at_0.
  destruct (starts_with (alt e1) input); [reflexivity|].
  destruct (starts_with (alt e2) input); [reflexivity|].
  destruct (starts_with (alt e3) input); reflexivity.
Qed.

End Anchored.

Lemma cleanBase64_cases (s : jsstring) :
  RegExp.replace s dataUrlPattern (js "") =
  if starts_with (js "data:image/png;base64,") s then skipn 22 s
  else if starts_with (js "data:image/jpg;base64,") s then skipn 22 s
  else if starts_with (js "data:image/jpeg;base64,") s then skipn 23 s
  else s.
Proof.
  exact (replace_anchored
           (js "data:image/") (js "png") (js "jpg") (js "jpeg") (js ";base64,") s).
Qed.

Lemma cleanBase64_strips (p rest : jsstring) :
  In p dataUrlPrefixes ->
  RegExp.replace (p ++ rest) dataUrlPattern (js "") = rest.
Proof.
  intros Hp. rewrite cleanBase64_cases.
  destruct Hp as [<- | [<- | [<- | []]]]; vm_compute; repeat rewrite N.eqb_refl;
    reflexivity.
Qed.

Lemma starts_with_false (p s : jsstring) :
  (forall rest, s <> p ++ rest) -> starts_with p s = false.
Proof.
  intros H. destruct (starts_with p s) eqn:E; [|reflexivity].
  apply starts_with_prefix in E as [rest ->]. destruct (H rest). reflexivity.
Qed.

Lemma not_prefix (p s : jsstring) :
  starts_with p s = false -> forall rest, s <> p ++ rest.
Proof.
  intros H rest ->.
  assert (starts_with p (p ++ rest) = true) as E
      by (apply starts_with_prefix; exists rest; reflexivity).
  congruence.
Qed.

Lemma cleanBase64_keeps (s : jsstring) :
  no_dataUrlPrefix s ->
  RegExp.replace s dataUrlPattern (js "") = s.
Proof.
  intros H. rewrite cleanBase64_cases.
  rewrite !starts_with_false; [reflexivity | | |];
    intros rest; apply H; unfold dataUrlPrefixes; simpl; auto.
Qed.

(** ** The control flow of a call *)

Lemma call_without_key self w b l s :
  truthy (apiKey self) = false ->
  call self w b l s = (Throws (Error MSG_API_KEY_MISSING), []).
Proof.
  intros H. unfold call, analyzePlantImage. rewrite H. reflexivity.
Qed.

Lemma call_with_key self w b l s :
  truthy (apiKey self) = true ->
  call self w b l s =
  let ai := client_of self in
  let req := request_of b l s in
  let sent := [NewGoogleGenAI ai; GenerateContent ai req] in
  let failed e :=
    (Throws (Error MSG_ANALYSIS_FAILED), sent ++ [ConsoleError LABEL e]) in
  match reply_of self w b l s with
  | Rejects e => failed e
  | Resolves r =>
      if truthy_opt (GenAI.response_text r) then
        match JSON.parse (ToString (GenAI.response_text r)) with
        | Some v => (Returns v, sent)
        | None => failed SyntaxError
        end
      else failed (Error MSG_NO_RESPONSE)
  end.
Proof.
  intros H. unfold call, analyzePlantImage, reply_of. rewrite H.
  cbv [negb bind try_catch new_GoogleGenAI models_generateContent log ret
       throw console_error JSON_parse app].
  fold (client_of self). fold (request_of b l s). fold LABEL.
  destruct (generateContent w (client_of self) (request_of b l s)) as [e|r];
    [reflexivity|].
  destruct (truthy_opt (GenAI.response_text r)); [|reflexivity].
  destruct (JSON.parse _); reflexivity.
Qed.

(** [JSON.parse] rejects the empty text. *)
Lemma parse_empty : JSON.parse [] = None.
Proof. reflexivity. Qed.

Lemma parse_Some_truthy (t : jsstring) (v : JSON.value) :
  JSON.parse t = Some v -> truthy t = true.
Proof. destruct t; [discriminate | reflexivity]. Qed.

(** A non-empty response text that parses is what the call returns. *)
Lemma call_returns_parsed self w b l s text v :
  truthy (apiKey self) = true ->
  reply_of self w b l s = Resolves {| GenAI.response_text := Some text |} ->
  JSON.parse text = Some v ->
  call self w b l s =
  (Returns v,
   [NewGoogleGenAI (client_of self);
    GenerateContent (client_of self) (request_of b l s)]).
Proof.
  intros Hkey Hreply Hparse. rewrite (call_with_key _ _ _ _ _ Hkey).
  cbv zeta. rewrite Hreply. cbn [GenAI.response_text truthy_opt ToString].
  rewrite (parse_Some_truthy _ _ Hparse), Hparse. reflexivity.
Qed.

(** With a credential, exactly one client is built and one request sent. *)
Lemma call_sends_one self w b l s :
  truthy (apiKey self) = true ->
  requests_sent (snd (call self w b l s)) = [request_of b l s] /\
  clients_built (snd (call self w b l s)) = [client_of self].
Proof.
  intros Hkey. rewrite (call_with_key _ _ _ _ _ Hkey). cbv zeta.
  destruct (reply_of self w b l s) as [e|r]; [split; reflexivity|].
  destruct (truthy_opt _); [|split; reflexivity].
  destruct (JSON.parse _); split; reflexivity.
Qed.

Lemma call_sends_at_most_one self w b l s req :
  In req (requests_sent (snd (call self w b l s))) -> req = request_of b l s.
Proof.
  destruct (truthy (apiKey self)) eqn:Hkey.
  - rewrite (proj1 (call_sends_one self w b l s Hkey)).
    intros [<- | []]. reflexivity.
  - rewrite (call_without_key _ _ _ _ _ Hkey). intros [].
Qed.

(** ** What the declared schema says about a value *)

Lemma existsb_eqb_In (s : jsstring) (l : list jsstring) :
  existsb (jsstring_eqb s) l = true -> In s l.
Proof.
  intros H. apply existsb_exists in H as [x [Hin Heq]].
  apply jsstring_eqb_eq in Heq. subst. exact Hin.
Qed.

Lemma forallb_text (l : list JSON.value) :
  forallb (fun v => match v with JSON.JString _ => true | _ => false end) l = true ->
  Forall is_text l.
Proof.
  induction l as [|v l IH]; simpl; intros H; constructor.
  - destruct v; try discriminate. eexists. reflexivity.
  - apply IH. destruct v; try discriminate. exact H.
Qed.

Lemma schema_accepts_seven_fields (v : JSON.value) :
  GenAI.schema_accepts responseSchema v = true -> seven_fields v.
Proof.
  destruct v as [| | | | |own]; try discriminate.
  unfold responseSchema.
  cbn [GenAI.schema_accepts forallb].
  intros H.
  repeat match type of H with
         | (_ && _)%bool = true => apply andb_prop in H as [? H]
         end.
  repeat match goal with
         | H : (_ && _)%bool = true |- _ => apply andb_prop in H as [? ?]
         end.
  split; cbn [JSON.get].
  - destruct (JSON.lookup (js "plant_name") own) as [[]|]; try congruence.
    eexists; reflexivity.
  - destruct (JSON.lookup (js "status") own) as [[]|]; try congruence.
    eexists. split; [reflexivity|]. apply existsb_eqb_In. assumption.
  - destruct (JSON.lookup (js "disease_name") own) as [[]|]; try congruence.
    + right. eexists; reflexivity.
    + left. reflexivity.
  - destruct (JSON.lookup (js "confidence") own) as [[]|]; try congruence.
    eexists; reflexivity.
  - destruct (JSON.lookup (js "treatment_advice") own) as [[]|]; try congruence.
    eexists; reflexivity.
  - destruct (JSON.lookup (js "prevention_tips") own) as [[]|]; try congruence.
    eexists. split; [reflexivity|]. apply forallb_text. assumption.
  - destruct (JSON.lookup (js "watering_advice") own) as [[]|]; try congruence.
    eexists; reflexivity.
Qed.

(** ** The claims *)

(** C2: when the input starts with one of the recognised data-URL
    prefixes, the one request that is sent carries the input without
    that prefix as its image data. *)
Theorem dataUrl_prefix_removed_from_request self w p rest language symptoms :
  truthy (apiKey self) = true ->
  In p dataUrlPrefixes ->
  List.map image_data
    (requests_sent (snd (call self w (p ++ rest) language symptoms)))
  = [[rest]].
Proof.
  intros Hkey Hp.
  rewrite (proj1 (call_sends_one self w (p ++ rest) language symptoms Hkey)).
  unfold request_of. rewrite (cleanBase64_strips p rest Hp). reflexivity.
Qed.

Lemma dataUrl_prefix_removed_from_request_witness :
  List.map image_data
    (requests_sent
       (snd (call (load_module env_with_key)
                  (remote_answers env_with_key (Some (js "null")))
                  (js "data:image/png;base64," ++ js "iVBORw0KGgo=")
                  (js "English") None)))
  = [[js "iVBORw0KGgo="]].
Proof.
  apply dataUrl_prefix_removed_from_request.
  - reflexivity.
  - left. reflexivity.
Defined.

(** C10: an input that starts with none of the three exact lower-case
    prefixes is transmitted unchanged; from an input that starts with
    one, exactly that one leading occurrence is removed and what follows
    is transmitted unchanged. *)
Theorem image_data_transmitted self w base64Image language symptoms :
  truthy (apiKey self) = true ->
  let transmitted :=
    List.map image_data
      (requests_sent (snd (call self w base64Image language symptoms))) in
  (no_dataUrlPrefix base64Image -> transmitted = [[base64Image]]) /\
  (forall p rest,
      In p dataUrlPrefixes -> base64Image = p ++ rest -> transmitted = [[rest]]).
Proof.
  intros Hkey transmitted. subst transmitted.
  rewrite (proj1 (call_sends_one self w base64Image language symptoms Hkey)).
  unfold request_of. split.
  - intros Hno. rewrite (cleanBase64_keeps _ Hno). reflexivity.
  - intros p rest Hp ->. rewrite (cleanBase64_strips p rest Hp). reflexivity.
Qed.

(** Inputs the pattern leaves alone: another image type, an upper-case
    scheme, a prefix that is not at the start. *)
Lemma unrecognised_inputs :
  no_dataUrlPrefix (js "data:image/webp;base64,UklGRg==") /\
  no_dataUrlPrefix (js "data:image/gif;base64,R0lGOD") /\
  no_dataUrlPrefix (js "DATA:IMAGE/PNG;BASE64,iVBORw0KGgo=") /\
  no_dataUrlPrefix (js " data:image/png;base64,iVBORw0KGgo=") /\
  no_dataUrlPrefix (js "iVBORw0KGgo=").
Proof.
  repeat split; intros p rest [<- | [<- | [<- | []]]]; apply not_prefix; reflexivity.
Qed.

Lemma image_data_transmitted_witness :
  let run b :=
    List.map image_data
      (requests_sent
         (snd (call (load_module env_with_key)
                    (remote_answers env_with_key (Some (js "null")))
                    b (js "English") None))) in
  run (js "data:image/webp;base64,UklGRg==") = [[js "data:image/webp;base64,UklGRg=="]] /\
  run (js "DATA:IMAGE/PNG;BASE64,iVBORw0KGgo=") = [[js "DATA:IMAGE/PNG;BASE64,iVBORw0KGgo="]] /\
  run (js " data:image/png;base64,iVBORw0KGgo=") = [[js " data:image/png;base64,iVBORw0KGgo="]] /\
  run (js "data:image/jpeg;base64," ++ js "data:image/jpeg;base64,/9j/4A==")
  = [[js "data:image/jpeg;base64,/9j/4A=="]].
Proof.
  cbv zeta.
  pose proof unrecognised_inputs as (Hwebp & _ & Hupper & Hlater & _).
  split; [|split; [|split]].
  - apply (image_data_transmitted (load_module env_with_key)); [reflexivity | exact Hwebp].
  - apply (image_data_transmitted (load_module env_with_key)); [reflexivity | exact Hupper].
  - apply (image_data_transmitted (load_module env_with_key)); [reflexivity | exact Hlater].
  - apply (proj2 (image_data_transmitted (load_module env_with_key) _ _ _ _ eq_refl)
             (js "data:image/jpeg;base64,") (js "data:image/jpeg;base64,/9j/4A==")).
    + right. right. left. reflexivity.
    + reflexivity.
Defined.

(** C3: with the credential absent or empty the call fails with the
    configuration error and does nothing else: the event log stays empty,
    so no client is built and no request is sent. *)
Theorem missing_credential_fails_before_io
        (env : gmap string jsstring) w base64Image language symptoms :
  env !! "API_KEY"%string = None \/ env !! "API_KEY"%string = Some (js "") ->
  let result := call (load_module env) w base64Image language symptoms in
  result = (Throws (Error MSG_API_KEY_MISSING), []) /\
  clients_built (snd result) = [] /\
  requests_sent (snd result) = [].
Proof.
  intros Henv result. subst result.
  rewrite call_without_key.
  - repeat split.
  - unfold load_module. cbn [apiKey]. destruct Henv as [-> | ->]; reflexivity.
Qed.

Lemma missing_credential_fails_before_io_witness :
  call (load_module env_without_key)
       (remote_answers env_without_key (Some (diagnosis "100" two_tips)))
       (js "iVBORw0KGgo=") (js "English") None
  = (Throws (Error MSG_API_KEY_MISSING), []).
Proof.
  apply (missing_credential_fails_before_io env_without_key).
  left. reflexivity.
Defined.

(** C4: when the remote call throws, or the response text is missing or
    empty, or the text is not JSON, the call fails with the one analysis
    error; what was thrown inside is logged and does not reach the
    caller. *)
Theorem analysis_failures_are_uniform self w base64Image language symptoms :
  truthy (apiKey self) = true ->
  failed_reply (reply_of self w base64Image language symptoms) ->
  fst (call self w base64Image language symptoms)
  = Throws (Error MSG_ANALYSIS_FAILED).
Proof.
  intros Hkey Hfail. rewrite (call_with_key _ _ _ _ _ Hkey). cbv zeta.
  destruct Hfail as [e | | | t Ht]; try reflexivity.
  cbn [GenAI.response_text truthy_opt ToString].
  destruct (truthy t); [rewrite Ht|]; reflexivity.
Qed.

Lemma analysis_failures_are_uniform_witness :
  let failure w :=
    fst (call (load_module env_with_key) w (js "iVBORw0KGgo=") (js "English") None)
    = Throws (Error MSG_ANALYSIS_FAILED) in
  failure (remote_rejects env_with_key (Rejection (js "fetch failed"))) /\
  failure (remote_answers env_with_key None) /\
  failure (remote_answers env_with_key (Some (js ""))) /\
  failure (remote_answers env_with_key (Some (js "Sorry, I cannot help."))).
Proof.
  cbv zeta. split; [|split; [|split]];
    apply (analysis_failures_are_uniform (load_module env_with_key));
    try reflexivity.
  - apply remote_throws.
  - apply text_missing.
  - apply text_empty.
  - apply text_not_json. reflexivity.
Defined.

(** C7: every request a call sends carries a response schema that
    declares exactly the seven fields, marks exactly the six fields other
    than [disease_name] as required, and restricts [status] to the three
    English words. *)
Theorem request_schema_is_declared self w base64Image language symptoms req :
  In req (requests_sent (snd (call self w base64Image language symptoms))) ->
  let schema := GenAI.responseSchema (GenAI.config req) in
  GenAI.responseMimeType (GenAI.config req) = js "application/json" /\
  GenAI.type schema = GenAI.OBJECT /\
  declared_fields schema = SEVEN_FIELDS /\
  GenAI.required schema = Some SIX_REQUIRED /\
  ~ In "disease_name"%string SIX_REQUIRED /\
  (forall name, In name SIX_REQUIRED <-> In name SEVEN_FIELDS /\ name <> "disease_name"%string) /\
  exists status,
    schema_property "status" schema = Some status /\
    GenAI.type status = GenAI.STRING /\
    GenAI.enum status = Some [js "Healthy"; js "Diseased"; js "Uncertain"].
Proof.
  intros Hreq. apply call_sends_at_most_one in Hreq. subst req.
  cbv zeta. repeat split.
  - unfold SIX_REQUIRED. simpl. intuition discriminate.
  - unfold SIX_REQUIRED, SEVEN_FIELDS in *. simpl in *. intuition.
  - unfold SIX_REQUIRED in *. simpl in *. intuition (subst; discriminate).
  - unfold SIX_REQUIRED, SEVEN_FIELDS. simpl. intros [H Hne]. intuition.
  - eexists. repeat split.
Qed.

Lemma request_schema_is_declared_witness :
  let req := request_of (js "iVBORw0KGgo=") (js "English") None in
  declared_fields (GenAI.responseSchema (GenAI.config req)) = SEVEN_FIELDS /\
  GenAI.required (GenAI.responseSchema (GenAI.config req)) = Some SIX_REQUIRED.
Proof.
  cbv zeta.
  pose proof
    (request_schema_is_declared
       (load_module env_with_key)
       (remote_answers env_with_key (Some (diagnosis "100" two_tips)))
       (js "iVBORw0KGgo=") (js "English") None
       (request_of (js "iVBORw0KGgo=") (js "English") None)) as H.
  cbv zeta in H.
  destruct H as (_ & _ & Hfields & Hreq & _).
  - rewrite (proj1 (call_sends_one (load_module env_with_key) _ _ _ _ eq_refl)).
    left. reflexivity.
  - split; assumption.
Defined.

(** C1, as the spec states it, fails: the text [42] decodes as JSON to a
    number, which is not the seven-field record, and the call returns that
    number instead of failing with the analysis error. *)
Lemma malformed_value_is_returned :
  let self := load_module env_with_key in
  let w := remote_answers env_with_key (Some (js "42")) in
  truthy (apiKey self) = true /\
  reply_of self w (js "iVBORw0KGgo=") (js "English") None
  = Resolves {| GenAI.response_text := Some (js "42") |} /\
  JSON.parse (js "42") = Some (JSON.JNumber 42) /\
  GenAI.schema_accepts responseSchema (JSON.JNumber 42) = false /\
  fst (call self w (js "iVBORw0KGgo=") (js "English") None)
  = Returns (JSON.JNumber 42) /\
  fst (call self w (js "iVBORw0KGgo=") (js "English") None)
  <> Throws (Error MSG_ANALYSIS_FAILED).
Proof.
  cbv zeta. split; [|split; [|split; [|split; [|split]]]];
    try (vm_compute; reflexivity).
  vm_compute. discriminate.
Qed.

(** C1, amended: a response text that decodes as JSON is returned as
    decoded even when the value does not have the seven-field shape; the
    call does not fail and logs no error. *)
Theorem decoded_value_returned_without_shape_check
        self w base64Image language symptoms text v :
  truthy (apiKey self) = true ->
  reply_of self w base64Image language symptoms
  = Resolves {| GenAI.response_text := Some text |} ->
  JSON.parse text = Some v ->
  GenAI.schema_accepts responseSchema v = false ->
  call self w base64Image language symptoms
  = (Returns v,
     [NewGoogleGenAI (client_of self);
      GenerateContent (client_of self) (request_of base64Image language symptoms)]).
Proof.
  intros Hkey Hreply Hparse _.
  exact (call_returns_parsed _ _ _ _ _ _ _ Hkey Hreply Hparse).
Qed.

Lemma decoded_value_returned_without_shape_check_witness :
  fst (call (load_module env_with_key)
            (remote_answers env_with_key (Some (quoted "{'plant_name':'Tomato'}")))
            (js "iVBORw0KGgo=") (js "English") None)
  = Returns (JSON.JObject [(js "plant_name", JSON.JString (js "Tomato"))]).
Proof.
  rewrite (decoded_value_returned_without_shape_check
             (load_module env_with_key)
             (remote_answers env_with_key (Some (quoted "{'plant_name':'Tomato'}")))
             (js "iVBORw0KGgo=") (js "English") None
             (quoted "{'plant_name':'Tomato'}")
             (JSON.JObject [(js "plant_name", JSON.JString (js "Tomato"))]));
    reflexivity.
Defined.

(** C5: when the response text is a JSON object that fits the declared
    schema, the call returns that object itself, so every field reads the
    same on both and none is added or dropped; its [status] is one of
    Healthy, Diseased, Uncertain. *)
Theorem conformant_response_returned_exactly
        self w base64Image language symptoms text v :
  truthy (apiKey self) = true ->
  reply_of self w base64Image language symptoms
  = Resolves {| GenAI.response_text := Some text |} ->
  JSON.parse text = Some v ->
  GenAI.schema_accepts responseSchema v = true ->
  exists r,
    fst (call self w base64Image language symptoms) = Returns r /\
    r = v /\
    (forall field, JSON.get field r = JSON.get field v) /\
    exists status,
      JSON.get "status" r = Some (JSON.JString status) /\
      In status [js "Healthy"; js "Diseased"; js "Uncertain"].
Proof.
  intros Hkey Hreply Hparse Hfits. exists v.
  rewrite (call_returns_parsed _ _ _ _ _ _ _ Hkey Hreply Hparse).
  split; [reflexivity|]. split; [reflexivity|]. split; [reflexivity|].
  exact (sf_status v (schema_accepts_seven_fields v Hfits)).
Qed.

Lemma conformant_response_returned_exactly_witness :
  exists r,
    fst (call (load_module env_with_key)
              (remote_answers env_with_key (Some (diagnosis "87.5" two_tips)))
              (js "iVBORw0KGgo=") (js "English") None) = Returns r /\
    JSON.parse (diagnosis "87.5" two_tips) = Some r /\
    JSON.get "status" r = Some (JSON.JString (js "Diseased")) /\
    JSON.get "confidence" r = Some (JSON.JNumber (175 # 2)).
Proof.
  destruct (conformant_response_returned_exactly
              (load_module env_with_key)
              (remote_answers env_with_key (Some (diagnosis "87.5" two_tips)))
              (js "iVBORw0KGgo=") (js "English") None
              (diagnosis "87.5" two_tips)
              (default JSON.JNull (JSON.parse (diagnosis "87.5" two_tips))))
    as (r & Hcall & Hr & _); try reflexivity.
  exists r. split; [exact Hcall|]. subst r. repeat split.
Defined.

(** C6, as the spec states it, fails: a response that fits the declared
    schema may carry a confidence of 150, and the call returns it as it
    is. *)
Lemma confidence_above_100_is_returned :
  exists v,
    JSON.parse (diagnosis "150" two_tips) = Some v /\
    GenAI.schema_accepts responseSchema v = true /\
    fst (call (load_module env_with_key)
              (remote_answers env_with_key (Some (diagnosis "150" two_tips)))
              (js "iVBORw0KGgo=") (js "English") None) = Returns v /\
    JSON.get "confidence" v = Some (JSON.JNumber 150) /\
    ~ in_percent_range 150.
Proof.
  eexists. split; [vm_compute; reflexivity|].
  split; [vm_compute; reflexivity|].
  split; [vm_compute; reflexivity|].
  split; [vm_compute; reflexivity|].
  intros [_ H]. vm_compute in H. apply H. reflexivity.
Qed.

(** C6, amended: for a response that fits the declared schema, the
    confidence of the returned record is a number and is the upstream
    number unchanged; the schema and the code put no bound on it, so it
    lies in [0, 100] exactly when the upstream value does. *)
Theorem confidence_returned_unchanged
        self w base64Image language symptoms text v :
  truthy (apiKey self) = true ->
  reply_of self w base64Image language symptoms
  = Resolves {| GenAI.response_text := Some text |} ->
  JSON.parse text = Some v ->
  GenAI.schema_accepts responseSchema v = true ->
  exists r q,
    fst (call self w base64Image language symptoms) = Returns r /\
    JSON.get "confidence" v = Some (JSON.JNumber q) /\
    JSON.get "confidence" r = Some (JSON.JNumber q).
Proof.
  intros Hkey Hreply Hparse Hfits.
  destruct (sf_confidence v (schema_accepts_seven_fields v Hfits)) as [q Hq].
  exists v, q.
  rewrite (call_returns_parsed _ _ _ _ _ _ _ Hkey Hreply Hparse).
  split; [reflexivity|]. split; exact Hq.
Qed.

Lemma confidence_returned_unchanged_witness :
  (exists r,
      fst (call (load_module env_with_key)
                (remote_answers env_with_key (Some (diagnosis "100" two_tips)))
                (js "iVBORw0KGgo=") (js "English") None) = Returns r /\
      JSON.get "confidence" r = Some (JSON.JNumber 100)) /\
  (exists r,
      fst (call (load_module env_with_key)
                (remote_answers env_with_key (Some (diagnosis "0" two_tips)))
                (js "iVBORw0KGgo=") (js "English") None) = Returns r /\
      JSON.get "confidence" r = Some (JSON.JNumber 0)).
Proof.
  split.
  - destruct (confidence_returned_unchanged
                (load_module env_with_key)
                (remote_answers env_with_key (Some (diagnosis "100" two_tips)))
                (js "iVBORw0KGgo=") (js "English") None
                (diagnosis "100" two_tips)
                (default JSON.JNull (JSON.parse (diagnosis "100" two_tips))))
      as (r & q & Hcall & Hup & Hr); try reflexivity.
    exists r. split; [exact Hcall|].
    rewrite Hr. vm_compute in Hup. injection Hup as <-. reflexivity.
  - destruct (confidence_returned_unchanged
                (load_module env_with_key)
                (remote_answers env_with_key (Some (diagnosis "0" two_tips)))
                (js "iVBORw0KGgo=") (js "English") None
                (diagnosis "0" two_tips)
                (default JSON.JNull (JSON.parse (diagnosis "0" two_tips))))
      as (r & q & Hcall & Hup & Hr); try reflexivity.
    exists r. split; [exact Hcall|].
    rewrite Hr. vm_compute in Hup. injection Hup as <-. reflexivity.
Defined.

(** C8, as the spec states it, fails: a response that fits the declared
    schema may carry a single prevention tip, and the call returns a
    record whose list has that one item. *)
Lemma single_prevention_tip_is_returned :
  exists v tips,
    JSON.parse (diagnosis "90" one_tip) = Some v /\
    GenAI.schema_accepts responseSchema v = true /\
    fst (call (load_module env_with_key)
              (remote_answers env_with_key (Some (diagnosis "90" one_tip)))
              (js "iVBORw0KGgo=") (js "English") None) = Returns v /\
    JSON.get "prevention_tips" v = Some (JSON.JArray tips) /\
    length tips = 1%nat /\
    ~ (2 <= length tips <= 3)%nat.
Proof.
  eexists. eexists. split; [vm_compute; reflexivity|].
  split; [vm_compute; reflexivity|].
  split; [vm_compute; reflexivity|].
  split; [vm_compute; reflexivity|].
  split; [reflexivity|]. simpl. lia.
Qed.

(** C8, amended: for a response that fits the declared schema, the
    prevention tips of the returned record are a list of text items, the
    upstream list with its order and length unchanged; the code puts no
    bound on the length. *)
Theorem prevention_tips_returned_unchanged
        self w base64Image language symptoms text v :
  truthy (apiKey self) = true ->
  reply_of self w base64Image language symptoms
  = Resolves {| GenAI.response_text := Some text |} ->
  JSON.parse text = Some v ->
  GenAI.schema_accepts responseSchema v = true ->
  exists r tips,
    fst (call self w base64Image language symptoms) = Returns r /\
    JSON.get "prevention_tips" v = Some (JSON.JArray tips) /\
    JSON.get "prevention_tips" r = Some (JSON.JArray tips) /\
    Forall is_text tips.
Proof.
  intros Hkey Hreply Hparse Hfits.
  destruct (sf_prevention_tips v (schema_accepts_seven_fields v Hfits))
    as (tips & Htips & Htext).
  exists v, tips.
  rewrite (call_returns_parsed _ _ _ _ _ _ _ Hkey Hreply Hparse).
  split; [reflexivity|]. split; [exact Htips|]. split; [exact Htips|exact Htext].
Qed.

Lemma prevention_tips_returned_unchanged_witness :
  exists r,
    fst (call (load_module env_with_key)
              (remote_answers env_with_key (Some (diagnosis "90" two_tips)))
              (js "iVBORw0KGgo=") (js "English") None) = Returns r /\
    JSON.get "prevention_tips" r
    = Some (JSON.JArray [JSON.JString (js "Rotate crops every season.");
                         JSON.JString (js "Keep the leaves dry.")]).
Proof.
  destruct (prevention_tips_returned_unchanged
              (load_module env_with_key)
              (remote_answers env_with_key (Some (diagnosis "90" two_tips)))
              (js "iVBORw0KGgo=") (js "English") None
              (diagnosis "90" two_tips)
              (default JSON.JNull (JSON.parse (diagnosis "90" two_tips))))
    as (r & tips & Hcall & Hup & Hr & _); try reflexivity.
  exists r. split; [exact Hcall|].
  rewrite Hr. vm_compute in Hup. injection Hup as <-. reflexivity.
Defined.

(** C9, as the spec states it, fails: a module loaded while the variable
    was unset keeps failing with the configuration error after the
    variable has been set, where a credential read at the time of the
    call would have let the call through. *)
Lemma credential_is_not_reread_at_call :
  let self := load_module env_without_key in
  let w := remote_answers env_with_key (Some (diagnosis "90" two_tips)) in
  process_env w !! "API_KEY"%string = Some (js "secret") /\
  call self w (js "iVBORw0KGgo=") (js "English") None
  = (Throws (Error MSG_API_KEY_MISSING), []) /\
  call self w (js "iVBORw0KGgo=") (js "English") None
  <> call (load_module (process_env w)) w (js "iVBORw0KGgo=") (js "English") None.
Proof.
  cbv zeta. split; [reflexivity|]. split; [reflexivity|].
  rewrite (call_without_key (load_module env_without_key)); [|reflexivity].
  intros H. apply (f_equal snd) in H.
  rewrite (call_with_key (load_module env_with_key)) in H; [|reflexivity].
  vm_compute in H. discriminate.
Qed.

(** C9, amended: the credential a call uses, for the presence check and
    for the client, is the value the environment variable had when the
    module was loaded; the environment at the time of the call has no
    influence. *)
Theorem credential_is_fixed_at_module_load
        (env_at_load env_at_call : gmap string jsstring)
        w base64Image language symptoms :
  let self := load_module env_at_load in
  let credential := or_else (env_at_load !! "API_KEY"%string) (js "") in
  call self (with_env w env_at_call) base64Image language symptoms
  = call self w base64Image language symptoms /\
  (call self w base64Image language symptoms
   = (Throws (Error MSG_API_KEY_MISSING), []) <-> credential = js "") /\
  Forall (fun ai => GenAI.options_apiKey ai = credential)
         (clients_built (snd (call self w base64Image language symptoms))).
Proof.
  cbv zeta.
  destruct (truthy (apiKey (load_module env_at_load))) eqn:Hkey.
  - rewrite !(call_with_key _ _ _ _ _ Hkey). cbv zeta.
    change (reply_of (load_module env_at_load) (with_env w env_at_call)
                     base64Image language symptoms)
      with (reply_of (load_module env_at_load) w base64Image language symptoms).
    split; [reflexivity|]. split.
    + split.
      * intros H. apply (f_equal snd) in H.
        destruct (reply_of _ w base64Image language symptoms) as [e|r];
          [discriminate|].
        destruct (truthy_opt _); [|discriminate].
        destruct (JSON.parse _); discriminate.
      * intros H. unfold load_module in Hkey. cbn [apiKey] in Hkey.
        rewrite H in Hkey. discriminate.
    + destruct (reply_of _ w base64Image language symptoms) as [e|r];
        [repeat constructor|].
      destruct (truthy_opt _); [|repeat constructor].
      destruct (JSON.parse _); repeat constructor.
  - rewrite !(call_without_key _ _ _ _ _ Hkey).
    split; [reflexivity|]. split; [|constructor].
    split; [|reflexivity]. intros _.
    unfold load_module in Hkey. cbn [apiKey] in Hkey.
    destruct (or_else _ _); [reflexivity | discriminate].
Qed.

(** ** Further properties of [analyzePlantImage] *)

Lemma messages_differ : MSG_API_KEY_MISSING <> MSG_ANALYSIS_FAILED.
Proof. intros H. vm_compute in H. discriminate H. Qed.

(** Run from any log, a call gives the outcome it gives from the empty
    log and appends its own events. *)
Lemma run_appends self w b l s (tr : list event) :
  analyzePlantImage self b l s w tr
  = (fst (call self w b l s), tr ++ snd (call self w b l s)).
Proof.
  unfold call, analyzePlantImage.
  destruct (truthy (apiKey self)); cbn [negb].
  - cbv [bind try_catch new_GoogleGenAI models_generateContent log ret
         throw console_error JSON_parse].
    destruct (generateContent w _ _) as [e|r];
      [cbn [fst snd app]; rewrite <- !app_assoc; reflexivity|].
    destruct (truthy_opt (GenAI.response_text r)); cbn [negb];
      [|cbn [fst snd app]; rewrite <- !app_assoc; reflexivity].
    destruct (JSON.parse _);
      cbn [fst snd app]; rewrite <- !app_assoc; reflexivity.
  - cbv [throw]. cbn [fst snd]. rewrite app_nil_r. reflexivity.
Qed.

(** A text of white space only is not JSON. *)
Lemma lex_blank (text : jsstring) : blank text -> JSON.lex 0 text = Some [].
Proof.
  unfold blank. induction text as [|c text IH]; intros H; [reflexivity|].
  cbn [forallb] in H. apply andb_prop in H as [Hc Ht].
  cbn [JSON.lex]. rewrite Hc. apply IH. exact Ht.
Qed.

Lemma parse_blank (text : jsstring) : blank text -> JSON.parse text = None.
Proof. intros H. unfold JSON.parse. rewrite (lex_blank text H). reflexivity. Qed.

(** X1: the image data of the request is always a tail of the input:
    what the pattern takes away is nothing or one of the three prefixes,
    taken from the front. *)
Theorem image_data_is_tail_of_input self w base64Image language symptoms :
  truthy (apiKey self) = true ->
  exists removed data,
    List.map image_data
      (requests_sent (snd (call self w base64Image language symptoms)))
    = [[data]] /\
    base64Image = removed ++ data /\
    (removed = [] \/ In removed dataUrlPrefixes).
Proof.
  intros Hkey.
  rewrite (proj1 (call_sends_one self w base64Image language symptoms Hkey)).
  unfold request_of. rewrite cleanBase64_cases.
  destruct (starts_with (js "data:image/png;base64,") base64Image) eqn:Hpng.
  { apply starts_with_prefix in Hpng as [r ->].
    exists (js "data:image/png;base64,"), r.
    split; [reflexivity|]. split; [reflexivity|]. right. left. reflexivity. }
  destruct (starts_with (js "data:image/jpg;base64,") base64Image) eqn:Hjpg.
  { apply starts_with_prefix in Hjpg as [r ->].
    exists (js "data:image/jpg;base64,"), r.
    split; [reflexivity|]. split; [reflexivity|]. right. right. left. reflexivity. }
  destruct (starts_with (js "data:image/jpeg;base64,") base64Image) eqn:Hjpeg.
  { apply starts_with_prefix in Hjpeg as [r ->].
    exists (js "data:image/jpeg;base64,"), r.
    split; [reflexivity|]. split; [reflexivity|].
    right. right. right. left. reflexivity. }
  exists [], base64Image.
  split; [reflexivity|]. split; [reflexivity|]. left. reflexivity.
Qed.

Lemma image_data_is_tail_of_input_witness :
  exists removed data,
    List.map image_data
      (requests_sent
         (snd (call (load_module env_with_key)
                    (remote_answers env_with_key (Some (js "null")))
                    (js "data:image/jpg;base64,/9j/4A==") (js "English") None)))
    = [[data]] /\
    js "data:image/jpg;base64,/9j/4A==" = removed ++ data /\
    (removed = [] \/ In removed dataUrlPrefixes).
Proof.
  apply (image_data_is_tail_of_input (load_module env_with_key)).
  reflexivity.
Defined.

(** X2: every request names the model gemini-2.5-flash and has two
    parts, the image first and the prompt second; the image part is
    declared as image/jpeg whatever the input was, also when a png
    data-URL prefix was removed from it. *)
Theorem request_parts_and_mime_type self w base64Image language symptoms req :
  In req (requests_sent (snd (call self w base64Image language symptoms))) ->
  GenAI.model req = js "gemini-2.5-flash" /\
  GenAI.systemInstruction (GenAI.config req) = systemInstruction_template language /\
  exists data,
    GenAI.parts (GenAI.contents req)
    = [GenAI.inlineData (js "image/jpeg") data;
       GenAI.text (prompt_template language symptoms)] /\
    (forall rest, base64Image = js "data:image/png;base64," ++ rest -> data = rest).
Proof.
  intros Hreq. apply call_sends_at_most_one in Hreq. subst req.
  split; [reflexivity|]. split; [reflexivity|].
  exists (RegExp.replace base64Image dataUrlPattern (js "")).
  split; [reflexivity|].
  intros rest ->. apply cleanBase64_strips. left. reflexivity.
Qed.

Lemma request_parts_and_mime_type_witness :
  let req := request_of (js "data:image/png;base64,iVBORw0KGgo=") (js "English") None in
  exists data,
    GenAI.parts (GenAI.contents req)
    = [GenAI.inlineData (js "image/jpeg") data;
       GenAI.text (prompt_template (js "English") None)] /\
    data = js "iVBORw0KGgo=".
Proof.
  cbv zeta.
  destruct (request_parts_and_mime_type
              (load_module env_with_key)
              (remote_answers env_with_key (Some (js "null")))
              (js "data:image/png;base64,iVBORw0KGgo=") (js "English") None
              (request_of (js "data:image/png;base64,iVBORw0KGgo=") (js "English") None))
    as (_ & _ & data & Hparts & Hpng).
  - rewrite (proj1 (call_sends_one (load_module env_with_key) _ _ _ _ eq_refl)).
    left. reflexivity.
  - exists data. split; [exact Hparts|].
    apply (Hpng (js "iVBORw0KGgo=")). reflexivity.
Defined.

(** X3: symptoms given as the empty string are treated as symptoms not
    given: the two calls send the same request and behave alike. *)
Theorem empty_symptoms_are_no_symptoms self w base64Image language (tr : list event) :
  analyzePlantImage self base64Image language (Some (js "")) w tr
  = analyzePlantImage self base64Image language None w tr.
Proof.
  unfold analyzePlantImage.
  change (prompt_template language (Some (js "")))
    with (prompt_template language None).
  reflexivity.
Qed.

(** X4: reported symptoms go into the prompt as they are, between double
    quotes and without escaping, in one sentence; the rest of the prompt
    is the same with and without symptoms. *)
Theorem symptoms_are_quoted_verbatim (language : jsstring) :
  exists before after,
    prompt_template language None = before ++ after /\
    forall symptoms,
      symptoms <> [] ->
      prompt_template language (Some symptoms)
      = before ++ symptoms_sentence symptoms ++ after.
Proof.
  exists (js "" ++ LF ++ js "    Analyze this plant leaf image." ++ LF ++ js "    ").
  eexists. split.
  - unfold prompt_template. cbn [unlines truthy_opt].
    rewrite <- !app_assoc. reflexivity.
  - intros symptoms Hne. unfold prompt_template, symptoms_sentence.
    destruct symptoms as [|c symptoms]; [congruence|].
    cbn [unlines truthy_opt truthy ToString].
    rewrite <- !app_assoc. reflexivity.
Qed.

(** X5: a call returns a value exactly when the credential is present
    and the remote service answers with a text that parses as JSON, and
    the value is the parsed one. *)
Theorem call_returns_iff self w base64Image language symptoms v :
  fst (call self w base64Image language symptoms) = Returns v <->
  truthy (apiKey self) = true /\
  exists text,
    reply_of self w base64Image language symptoms
    = Resolves {| GenAI.response_text := Some text |} /\
    JSON.parse text = Some v.
Proof.
  split.
  - intros Hret. destruct (truthy (apiKey self)) eqn:Hkey.
    + split; [reflexivity|].
      rewrite (call_with_key _ _ _ _ _ Hkey) in Hret. cbv zeta in Hret.
      destruct (reply_of self w base64Image language symptoms) as [e|[text]];
        [discriminate|].
      cbn [GenAI.response_text] in Hret.
      destruct text as [text|]; [|discriminate].
      cbn [truthy_opt ToString] in Hret.
      destruct (truthy text); [|discriminate].
      destruct (JSON.parse text) as [v'|] eqn:Hparse; [|discriminate].
      exists text. split; [reflexivity|].
      cbn [fst] in Hret. congruence.
    + rewrite (call_without_key _ _ _ _ _ Hkey) in Hret. discriminate.
  - intros (Hkey & text & Hreply & Hparse).
    rewrite (call_returns_parsed _ _ _ _ _ _ _ Hkey Hreply Hparse). reflexivity.
Qed.

(** X6: a call throws nothing but its two own errors: the configuration
    error when the credential is missing, the analysis error otherwise.
    What the remote call or [JSON.parse] threw never reaches the caller. *)
Theorem only_two_errors_are_thrown self w base64Image language symptoms e :
  fst (call self w base64Image language symptoms) = Throws e ->
  (truthy (apiKey self) = false /\ e = Error MSG_API_KEY_MISSING) \/
  (truthy (apiKey self) = true /\ e = Error MSG_ANALYSIS_FAILED).
Proof.
  intros Hthrow. destruct (truthy (apiKey self)) eqn:Hkey.
  - right. split; [reflexivity|].
    rewrite (call_with_key _ _ _ _ _ Hkey) in Hthrow. cbv zeta in Hthrow.
    destruct (reply_of self w base64Image language symptoms) as [e'|r];
      [cbn [fst] in Hthrow; congruence|].
    destruct (truthy_opt _); [|cbn [fst] in Hthrow; congruence].
    destruct (JSON.parse _); cbn [fst] in Hthrow; congruence.
  - left. split; [reflexivity|].
    rewrite (call_without_key _ _ _ _ _ Hkey) in Hthrow.
    cbn [fst] in Hthrow. congruence.
Qed.

Lemma only_two_errors_are_thrown_witness :
  let self := load_module env_with_key in
  let w := remote_rejects env_with_key (Rejection (js "fetch failed")) in
  fst (call self w (js "iVBORw0KGgo=") (js "English") None)
  = Throws (Error MSG_ANALYSIS_FAILED) /\
  ((truthy (apiKey self) = false /\
    Error MSG_ANALYSIS_FAILED = Error MSG_API_KEY_MISSING) \/
   (truthy (apiKey self) = true /\
    Error MSG_ANALYSIS_FAILED = Error MSG_ANALYSIS_FAILED)).
Proof.
  cbv zeta. split; [reflexivity|].
  apply (only_two_errors_are_thrown
           (load_module env_with_key)
           (remote_rejects env_with_key (Rejection (js "fetch failed")))
           (js "iVBORw0KGgo=") (js "English") None).
  reflexivity.
Defined.

(** X7: the diagnostic logged on a failure names its cause: what the
    remote call rejected with, the error "No response from AI" for a
    missing or empty text, the [SyntaxError] of [JSON.parse] for a text
    that is not JSON.  It is logged once, under the label
    "Gemini Analysis Error:". *)
Theorem failure_cause_is_logged self w base64Image language symptoms :
  truthy (apiKey self) = true ->
  let logged := console_errors (snd (call self w base64Image language symptoms)) in
  let label := js "Gemini Analysis Error:" in
  (forall e,
      reply_of self w base64Image language symptoms = Rejects e ->
      logged = [(label, e)]) /\
  (forall r,
      reply_of self w base64Image language symptoms = Resolves r ->
      truthy_opt (GenAI.response_text r) = false ->
      logged = [(label, Error (js "No response from AI"))]) /\
  (forall text,
      reply_of self w base64Image language symptoms
      = Resolves {| GenAI.response_text := Some text |} ->
      text <> [] ->
      JSON.parse text = None ->
      logged = [(label, SyntaxError)]).
Proof.
  intros Hkey logged label. subst logged label.
  rewrite (call_with_key _ _ _ _ _ Hkey). cbv zeta.
  split; [|split].
  - intros e ->. reflexivity.
  - intros r -> Hfalsy. rewrite Hfalsy. reflexivity.
  - intros text -> Hne Hparse.
    destruct text as [|c text]; [congruence|].
    cbn [GenAI.response_text truthy_opt truthy ToString].
    rewrite Hparse. reflexivity.
Qed.

Lemma failure_cause_is_logged_witness :
  let run w :=
    console_errors
      (snd (call (load_module env_with_key) w (js "iVBORw0KGgo=") (js "English") None)) in
  run (remote_rejects env_with_key (Rejection (js "fetch failed")))
  = [(js "Gemini Analysis Error:", Rejection (js "fetch failed"))] /\
  run (remote_answers env_with_key None)
  = [(js "Gemini Analysis Error:", Error (js "No response from AI"))] /\
  run (remote_answers env_with_key (Some (js "Sorry, I cannot help.")))
  = [(js "Gemini Analysis Error:", SyntaxError)].
Proof.
  cbv zeta. split; [|split].
  - apply (proj1 (failure_cause_is_logged
                    (load_module env_with_key)
                    (remote_rejects env_with_key (Rejection (js "fetch failed")))
                    (js "iVBORw0KGgo=") (js "English") None eq_refl)).
    reflexivity.
  - apply (proj1 (proj2 (failure_cause_is_logged
                           (load_module env_with_key)
                           (remote_answers env_with_key None)
                           (js "iVBORw0KGgo=") (js "English") None eq_refl))
             {| GenAI.response_text := None |});
      reflexivity.
  - apply (proj2 (proj2 (failure_cause_is_logged
                           (load_module env_with_key)
                           (remote_answers env_with_key (Some (js "Sorry, I cannot help.")))
                           (js "iVBORw0KGgo=") (js "English") None eq_refl))
             (js "Sorry, I cannot help."));
      [reflexivity | discriminate | reflexivity].
Defined.

(** X8: something is logged exactly when the call fails with the
    analysis error: a call that returns a value and a call that fails
    with the configuration error log nothing, and no call logs twice. *)
Theorem logged_iff_analysis_failed self w base64Image language symptoms :
  let result := call self w base64Image language symptoms in
  (console_errors (snd result) <> [] <->
   fst result = Throws (Error MSG_ANALYSIS_FAILED)) /\
  (length (console_errors (snd result)) <= 1)%nat.
Proof.
  cbv zeta. destruct (truthy (apiKey self)) eqn:Hkey.
  - rewrite (call_with_key _ _ _ _ _ Hkey). cbv zeta.
    destruct (reply_of self w base64Image language symptoms) as [e|r].
    { split; [split; [reflexivity | discriminate] | simpl; lia]. }
    destruct (truthy_opt _).
    2:{ split; [split; [reflexivity | discriminate] | simpl; lia]. }
    destruct (JSON.parse _).
    + split; [split; [intros H; destruct H; reflexivity | discriminate] | simpl; lia].
    + split; [split; [reflexivity | discriminate] | simpl; lia].
  - rewrite (call_without_key _ _ _ _ _ Hkey). cbn [fst snd console_errors flat_map].
    split; [|simpl; lia].
    split; [intros H; destruct H; reflexivity|].
    intros H. exfalso. apply messages_differ. congruence.
Qed.

(** X9: with a credential, a call builds its client first and then sends
    one request, whatever the remote service replies: a failed call is
    not retried, and nothing but one diagnostic follows the request. *)
Theorem one_client_then_one_request self w base64Image language symptoms :
  truthy (apiKey self) = true ->
  let log := snd (call self w base64Image language symptoms) in
  firstn 2 log
  = [NewGoogleGenAI (client_of self);
     GenerateContent (client_of self) (request_of base64Image language symptoms)] /\
  requests_sent (skipn 2 log) = [] /\
  clients_built (skipn 2 log) = [] /\
  (length log <= 3)%nat.
Proof.
  intros Hkey log. subst log.
  rewrite (call_with_key _ _ _ _ _ Hkey). cbv zeta.
  destruct (reply_of self w base64Image language symptoms) as [e|r];
    [repeat split; simpl; lia|].
  destruct (truthy_opt _); [|repeat split; simpl; lia].
  destruct (JSON.parse _); repeat split; simpl; lia.
Qed.

Lemma one_client_then_one_request_witness :
  let log :=
    snd (call (load_module env_with_key)
              (remote_rejects env_with_key (Rejection (js "fetch failed")))
              (js "iVBORw0KGgo=") (js "English") None) in
  requests_sent (skipn 2 log) = [] /\ (length log <= 3)%nat.
Proof.
  cbv zeta.
  destruct (one_client_then_one_request
              (load_module env_with_key)
              (remote_rejects env_with_key (Rejection (js "fetch failed")))
              (js "iVBORw0KGgo=") (js "English") None eq_refl)
    as (_ & Hreq & _ & Hlen).
  split; [exact Hreq | exact Hlen].
Defined.


(** X11: two calls in a row, with a credential, build two clients and
    send two requests, each call its own: the client is not kept from
    one call to the next. *)
Theorem every_call_builds_its_own_client self w b1 l1 s1 b2 l2 s2 :
  truthy (apiKey self) = true ->
  let first := call self w b1 l1 s1 in
  let second := analyzePlantImage self b2 l2 s2 w (snd first) in
  clients_built (snd second) = [client_of self; client_of self] /\
  requests_sent (snd second) = [request_of b1 l1 s1; request_of b2 l2 s2].
Proof.
  intros Hkey first second. subst first second.
  rewrite run_appends. cbn [snd].
  unfold clients_built, requests_sent. rewrite !flat_map_app.
  fold (clients_built (snd (call self w b1 l1 s1))).
  fold (clients_built (snd (call self w b2 l2 s2))).
  fold (requests_sent (snd (call self w b1 l1 s1))).
  fold (requests_sent (snd (call self w b2 l2 s2))).
  destruct (call_sends_one self w b1 l1 s1 Hkey) as [-> ->].
  destruct (call_sends_one self w b2 l2 s2 Hkey) as [-> ->].
  split; reflexivity.
Qed.

Lemma every_call_builds_its_own_client_witness :
  let self := load_module env_with_key in
  let w := remote_answers env_with_key (Some (diagnosis "90" two_tips)) in
  let first := call self w (js "iVBORw0KGgo=") (js "English") None in
  let second :=
    analyzePlantImage self (js "/9j/4A==") (js "Hindi") (Some (js "yellow spots"))
                      w (snd first) in
  clients_built (snd second) = [client_of self; client_of self] /\
  requests_sent (snd second)
  = [request_of (js "iVBORw0KGgo=") (js "English") None;
     request_of (js "/9j/4A==") (js "Hindi") (Some (js "yellow spots"))].
Proof.
  cbv zeta.
  apply (every_call_builds_its_own_client (load_module env_with_key)).
  reflexivity.
Defined.

(** X12: the request depends on the three arguments only: neither the
    credential nor the remote service's behaviour changes what is sent;
    the credential travels in the client alone. *)
Theorem request_is_independent_of_credential
        self1 self2 w1 w2 base64Image language symptoms :
  truthy (apiKey self1) = true ->
  truthy (apiKey self2) = true ->
  requests_sent (snd (call self1 w1 base64Image language symptoms))
  = requests_sent (snd (call self2 w2 base64Image language symptoms)) /\
  List.map GenAI.options_apiKey
    (clients_built (snd (call self1 w1 base64Image language symptoms)))
  = [apiKey self1].
Proof.
  intros Hkey1 Hkey2.
  destruct (call_sends_one self1 w1 base64Image language symptoms Hkey1) as [-> ->].
  destruct (call_sends_one self2 w2 base64Image language symptoms Hkey2) as [-> _].
  split; reflexivity.
Qed.

Lemma request_is_independent_of_credential_witness :
  let other := {| apiKey := js "another key" |} in
  requests_sent
    (snd (call (load_module env_with_key)
               (remote_answers env_with_key (Some (diagnosis "90" two_tips)))
               (js "iVBORw0KGgo=") (js "English") None))
  = requests_sent
      (snd (call other (remote_rejects env_without_key (Rejection (js "fetch failed")))
                 (js "iVBORw0KGgo=") (js "English") None)).
Proof.
  cbv zeta.
  apply (request_is_independent_of_credential
           (load_module env_with_key) {| apiKey := js "another key" |});
    reflexivity.
Defined.

(** X13: with a credential, the outcome of a call is decided by the
    remote reply alone: the arguments and the credential act on it only
    through the reply they obtain. *)
Theorem outcome_is_decided_by_reply self1 self2 w1 w2 b1 l1 s1 b2 l2 s2 :
  truthy (apiKey self1) = true ->
  truthy (apiKey self2) = true ->
  reply_of self1 w1 b1 l1 s1 = reply_of self2 w2 b2 l2 s2 ->
  fst (call self1 w1 b1 l1 s1) = fst (call self2 w2 b2 l2 s2).
Proof.
  intros Hkey1 Hkey2 Hreply.
  rewrite (call_with_key _ _ _ _ _ Hkey1), (call_with_key _ _ _ _ _ Hkey2).
  cbv zeta. rewrite Hreply.
  destruct (reply_of self2 w2 b2 l2 s2) as [e|r]; [reflexivity|].
  destruct (truthy_opt _); [|reflexivity].
  destruct (JSON.parse _); reflexivity.
Qed.

Lemma outcome_is_decided_by_reply_witness :
  let w := remote_answers env_with_key (Some (diagnosis "90" two_tips)) in
  fst (call (load_module env_with_key) w (js "iVBORw0KGgo=") (js "English") None)
  = fst (call {| apiKey := js "another key" |} w
              (js "data:image/png;base64,/9j/4A==") (js "Hindi")
              (Some (js "yellow spots"))).
Proof.
  cbv zeta.
  apply (outcome_is_decided_by_reply
           (load_module env_with_key) {| apiKey := js "another key" |});
    reflexivity.
Defined.

(** X14: the emptiness test lets a text of white space through: such a
    text is not taken for a missing response, it fails in [JSON.parse],
    and the call ends in the analysis error with the [SyntaxError]
    logged. *)
Theorem blank_text_fails_in_parse self w base64Image language symptoms text :
  truthy (apiKey self) = true ->
  reply_of self w base64Image language symptoms
  = Resolves {| GenAI.response_text := Some text |} ->
  text <> [] ->
  blank text ->
  fst (call self w base64Image language symptoms)
  = Throws (Error MSG_ANALYSIS_FAILED) /\
  console_errors (snd (call self w base64Image language symptoms))
  = [(js "Gemini Analysis Error:", SyntaxError)].
Proof.
  intros Hkey Hreply Hne Hblank.
  rewrite (call_with_key _ _ _ _ _ Hkey). cbv zeta. rewrite Hreply.
  destruct text as [|c text]; [congruence|].
  cbn [GenAI.response_text truthy_opt truthy ToString].
  rewrite (parse_blank _ Hblank). split; reflexivity.
Qed.

Lemma blank_text_fails_in_parse_witness :
  let result :=
    call (load_module env_with_key)
         (remote_answers env_with_key (Some (js "  ")))
         (js "iVBORw0KGgo=") (js "English") None in
  fst result = Throws (Error MSG_ANALYSIS_FAILED) /\
  console_errors (snd result) = [(js "Gemini Analysis Error:", SyntaxError)].
Proof.
  cbv zeta.
  apply (blank_text_fails_in_parse
           (load_module env_with_key)
           (remote_answers env_with_key (Some (js "  ")))
           (js "iVBORw0KGgo=") (js "English") None (js "  "));
    [reflexivity | reflexivity | discriminate | reflexivity].
Defined.

(** X15: the system instruction is a fixed text with two holes, and the
    requested language fills both as it is given, unchecked and
    unescaped. *)
Theorem language_fills_system_instruction :
  exists a b c,
    forall language,
      systemInstruction_template language = a ++ language ++ b ++ language ++ c.
Proof.
  exists (unlines
            [ js "";
              js "    You are an expert agricultural plant pathologist and linguist. ";
              js "    Your task is to analyze plant images and provide diagnosis and advice.";
              js "    ";
              js "    CRITICAL LANGUAGE REQUIREMENT: ";
              js "    The user has requested the response in " ]).
  exists (js "." ++ LF ++
          js "    You MUST translate all descriptive fields (plant_name, disease_name, treatment_advice, prevention_tips, watering_advice) into ").
  exists (js "." ++ LF ++
          js "    However, the 'status' field MUST remain in English (Healthy, Diseased, Uncertain) for programmatic use."
          ++ LF ++ js "  ").
  intros language. unfold systemInstruction_template. cbn [unlines].
  rewrite <- !app_assoc. reflexivity.
Qed.
